(** * k0s [sysinfo] command: the report layer

    A shallow embedding of [cmd/sysinfo/sysinfo.go]: the human reporter
    ([cliReporter]), the structured collector ([resultsCollector]), the
    shared helpers ([probePath], [propString], [indent], [buildMsg]) and the
    command body ([RunE] of [NewSysinfoCmd], [collectAndPrint]).

    Go values are modelled as follows.
    - [string] is [string]; a slice is a [list] (Go's nil slice and its
      empty slice are both [[]]); [int] is [Z].
    - An [error] value is [option errors.error], [None] being Go's [nil].
    - An interface value that the code compares with [nil] is an [option].
    - Methods with a pointer receiver return the updated receiver.
    - Everything outside the package (the probe engine, the output sink,
      the colour library, the encoders) is a parameter; its effects go
      through the [World] of module [probes]. *)

From Stdlib Require Import String Ascii List ZArith Lia Bool.
Import ListNotations.
Open Scope string_scope.

(** ** Package [errors] and the [error] interface *)

Module errors.

(** An error is observed through its [Error()] text only. *)
Record error := New { Error : string }.

End errors.

Abbreviation error := errors.error.

(** ** Package [strings] *)

Module strings.

Fixpoint repeat (s : string) (n : nat) : string :=
  match n with
  | O => ""
  | S n' => s ++ repeat s n'
  end.

(** [strings.Repeat] panics on a negative count; [indent] never passes
    one. *)
Definition Repeat (s : string) (count : Z) : string :=
  repeat s (Z.to_nat count).

(** [strings.Builder]: the buffer is the text written so far. *)
Definition Builder := string.
Definition WriteRune (buf : Builder) (r : ascii) : Builder :=
  buf ++ String r "".
Definition WriteString (buf : Builder) (s : string) : Builder :=
  buf ++ s.

Definition newline : string := String (ascii_of_nat 10) "".

(** No line feed occurs in the text. *)
Fixpoint oneline (s : string) : bool :=
  match s with
  | "" => true
  | String c s' => negb (Ascii.eqb c (ascii_of_nat 10)) && oneline s'
  end.

End strings.

(** ** Package [io]: the output sink *)

Module io.

(** A sink is the list of the contents it was asked to write, one entry
    per [Write] call, and its reaction to the next call given the calls
    before it.  The byte count a [Write] returns is dropped by every
    caller in the package and is not modelled. *)
Record Writer := {
  written : list string;
  respond : list string -> string -> option error
}.

Definition Write (w : Writer) (p : string) : Writer * option error :=
  ({| written := written w ++ [p]; respond := respond w |},
   respond w (written w) p).

(** [io.WriteString] makes one call of the sink's write method. *)
Definition WriteString (w : Writer) (s : string) : Writer * option error :=
  Write w s.

End io.

(** ** Package [aurora]: colours *)

Module aurora.

Inductive Color := BrightWhiteFg | GreenFg | YellowFg | RedFg.

(** A value to print, with the colour and the format flag put on it. *)
Record Value := {
  value : string;
  fg : option Color;
  bold : bool
}.

(** A configuration is the way [%s] shows a [Value]. *)
Record Aurora := { Sprint : Value -> string }.

Definition BrightWhite (s : string) : Value :=
  {| value := s; fg := Some BrightWhiteFg; bold := false |}.
Definition Green (s : string) : Value :=
  {| value := s; fg := Some GreenFg; bold := false |}.
Definition Yellow (s : string) : Value :=
  {| value := s; fg := Some YellowFg; bold := false |}.
Definition Red (s : string) : Value :=
  {| value := s; fg := Some RedFg; bold := false |}.
(** [Bold] of a plain string. *)
Definition Bold (s : string) : Value :=
  {| value := s; fg := None; bold := true |}.
(** [Bold] of a [Value], and the method [Value.Red]. *)
Definition Value_Bold (v : Value) : Value :=
  {| value := value v; fg := fg v; bold := true |}.
Definition Value_Red (v : Value) : Value :=
  {| value := value v; fg := Some RedFg; bold := bold v |}.

(** [NewAurora false]: every value prints as its bare text. *)
Definition clear : Aurora := {| Sprint := value |}.

(** [NewAurora]; [colored] is the escape-sequence printer of the
    library. *)
Definition NewAurora (colored : Aurora) (enableColors : bool) : Aurora :=
  if enableColors then colored else clear.

End aurora.

(** ** Package [probes]: descriptors, reporters and the engine *)

Module probes.

(** A non-nil [ProbeDesc]. *)
Record ProbeDesc := {
  Path : list string;
  DisplayName : string
}.

(** A non-nil [ProbedProp]. *)
Record ProbedProp := { String_ : string }.

(** One call of a reporter method, with its arguments. *)
Inductive Callback :=
| CallPass (p : ProbeDesc) (v : option ProbedProp)
| CallWarn (p : ProbeDesc) (v : option ProbedProp) (msg : string)
| CallReject (p : ProbeDesc) (v : option ProbedProp) (msg : string)
| CallError (p : ProbeDesc) (err : option error).

(** [rejected] and [error] outcomes. *)
Definition failing (c : Callback) : bool :=
  match c with
  | CallPass _ _ | CallWarn _ _ _ => false
  | CallReject _ _ _ | CallError _ _ => true
  end.

(** What a run of the command can touch: the command's output sink, and
    two observation-only logs, the number of calls of the engine's
    [Probe] entry point and the callbacks the engine made. *)
Record World := {
  stdout : io.Writer;
  invocations : nat;
  delivered : list Callback
}.

Definition M (A : Type) : Type := World -> A * World.

Definition ret {A} (a : A) : M A := fun w => (a, w).
Definition bind {A B} (m : M A) (f : A -> M B) : M B :=
  fun w => let (a, w') := m w in f a w'.

(** [cmd.OutOrStdout()] *)
Definition OutOrStdout : M io.Writer := fun w => (stdout w, w).

(** [out.Write(bytes)] on the command's sink. *)
Definition write (bytes : string) : M (option error) :=
  fun w =>
    let (out, err) := io.Write (stdout w) bytes in
    (err, {| stdout := out;
             invocations := invocations w;
             delivered := delivered w |}).

(** [io.WriteString(w, s)] on the command's sink. *)
Definition writeString (s : string) : M (option error) :=
  fun w =>
    let (out, err) := io.WriteString (stdout w) s in
    (err, {| stdout := out;
             invocations := invocations w;
             delivered := delivered w |}).

Definition enter : M unit :=
  fun w => (tt, {| stdout := stdout w;
                   invocations := S (invocations w);
                   delivered := delivered w |}).

Definition note (c : Callback) : M unit :=
  fun w => (tt, {| stdout := stdout w;
                   invocations := invocations w;
                   delivered := delivered w ++ [c] |}).

(** The [Reporter] interface. *)
Class Reporter (R : Type) := {
  Pass : R -> ProbeDesc -> option ProbedProp -> M (option error * R);
  Warn : R -> ProbeDesc -> option ProbedProp -> string ->
         M (option error * R);
  Reject : R -> ProbeDesc -> option ProbedProp -> string ->
           M (option error * R);
  Error : R -> ProbeDesc -> option error -> M (option error * R)
}.

Definition deliver {R} `{Reporter R} (r : R) (c : Callback)
  : M (option error * R) :=
  match c with
  | CallPass p v => Pass r p v
  | CallWarn p v msg => Warn r p v msg
  | CallReject p v msg => Reject r p v msg
  | CallError p err => Error r p err
  end.

(** The [Probe] interface.  An engine either returns its own result or
    makes a callback and goes on according to what the callback
    returned; it reaches the reporter and the sink through callbacks
    only, and it returns. *)
Inductive Probe :=
| Return (res : option error)
| Call (c : Callback) (k : option error -> Probe).

Fixpoint run {R} `{Reporter R} (e : Probe) (r : R)
  : M (option error * R) :=
  match e with
  | Return res => ret (res, r)
  | Call c k =>
      bind (note c) (fun _ =>
      bind (deliver r c) (fun '(res, r') =>
      run (k res) r'))
  end.

(** The method [Probe(reporter)]. *)
Definition Probe_Probe {R} `{Reporter R} (e : Probe) (r : R)
  : M (option error * R) :=
  bind enter (fun _ => run e r).

End probes.

Import probes.

Notation "x <- c ;; k" := (bind c (fun x => k))
  (at level 61, c at next level, right associativity).
Notation "' pat <- c ;; k" := (bind c (fun pat => k))
  (at level 61, pat pattern, c at next level, right associativity).

(** ** Package [sysinfo] (cmd/sysinfo) *)

(** The collaborators the command reaches by name. *)
Record K0sSysinfoSpec := {
  ControllerRoleEnabled : bool;
  WorkerRoleEnabled : bool;
  DataDir : string;
  AddDebugProbes : bool
}.

(** One result of the collector (the struct [Probe] of the package). *)
Module result.

Definition ProbeCategory := string.

Definition ProbeCategoryPass : ProbeCategory := "pass".
Definition ProbeCategoryWarning : ProbeCategory := "warning".
Definition ProbeCategoryRejected : ProbeCategory := "rejected".
Definition ProbeCategoryError : ProbeCategory := "error".

Record Probe := {
  Path : list string;
  DisplayName : string;
  Prop_ : string;
  Message : string;
  Category : ProbeCategory;
  Error : option error
}.

End result.

Record Extern := {
  NewSysinfoProbes : K0sSysinfoSpec -> probes.Probe;
  IsTerminal : io.Writer -> bool;
  colored : aurora.Aurora;
  Quote : string -> string;
  json_MarshalIndent : list result.Probe -> string * option error;
  yaml_Marshal : list result.Probe -> string * option error
}.

Definition probePath (p : ProbeDesc) : list string :=
  if (Z.of_nat (List.length (Path p)) =? 0)%Z then [] else Path p.

Definition propString (p : option ProbedProp) : string :=
  match p with
  | None => ""
  | Some v => String_ v
  end.

Definition indent (p : option ProbeDesc) : string :=
  let count := 0%Z in
  match p with
  | Some d =>
      let count := (Z.of_nat (List.length (Path d)) - 1)%Z in
      if (count <? 1)%Z then "" else strings.Repeat "  " count
  | None => strings.Repeat "  " count
  end.

Definition buildMsg (propString category msg : string) : string :=
  let buf : strings.Builder := "" in
  let buf := if propString =? "" then buf else strings.WriteRune buf " " in
  let buf := strings.WriteRune buf "(" in
  let buf := strings.WriteString buf category in
  let buf := if msg =? "" then buf
             else strings.WriteString (strings.WriteString buf ": ") msg in
  let buf := strings.WriteRune buf ")" in
  buf.

(** An argument of [aurora.Sprintf]. *)
Inductive Arg :=
| Str (s : string)
| Val (v : aurora.Value).

Module cliReporter.

(** The field [w] is the command's output sink, [stdout] of the
    [World]. *)
Record t := {
  colors : aurora.Aurora;
  failed : bool
}.

Definition show (r : t) (a : Arg) : string :=
  match a with
  | Str s => s
  | Val v => aurora.Sprint (colors r) v
  end.

(** [aurora.Sprintf] at the two formats of the package, ["%s%s%s%s\n"]
    and ["%s%s%s\n"]: one [%s] for each argument, then a line feed. *)
Definition Sprintf (r : t) (args : list Arg) : string :=
  String.concat "" (map (show r) args) ++ strings.newline.

Definition printf (r : t) (args : list Arg) : M (option error) :=
  writeString (Sprintf r args).

Definition Pass (r : t) (p : ProbeDesc) (v : option ProbedProp)
  : M (option error * t) :=
  let prop := propString v in
  err <- printf r [Str (indent (Some p));
                   Val (aurora.BrightWhite (DisplayName p ++ ": "));
                   Val (aurora.Green prop);
                   Str (buildMsg prop "pass" "")] ;;
  ret (err, r).

Definition Warn (r : t) (p : ProbeDesc) (v : option ProbedProp)
  (msg : string) : M (option error * t) :=
  let prop := propString v in
  err <- printf r [Str (indent (Some p));
                   Val (aurora.BrightWhite (DisplayName p ++ ": "));
                   Val (aurora.Yellow prop);
                   Str (buildMsg prop "warning" msg)] ;;
  ret (err, r).

Definition Reject (r : t) (p : ProbeDesc) (v : option ProbedProp)
  (msg : string) : M (option error * t) :=
  let r := {| colors := colors r; failed := true |} in
  let prop := propString v in
  err <- printf r [Str (indent (Some p));
                   Val (aurora.BrightWhite (DisplayName p ++ ": "));
                   Val (aurora.Value_Bold (aurora.Red prop));
                   Str (buildMsg prop "rejected" msg)] ;;
  ret (err, r).

(** The text shown for the error: the local [errStr]. *)
Definition errStr (err : option error) : string :=
  let errStr := "error" in
  match err with
  | Some e' =>
      let e := errors.Error e' in
      if e =? "" then errStr else errStr ++ ": " ++ e
  | None => errStr
  end.

Definition Error (r : t) (p : ProbeDesc) (err : option error)
  : M (option error * t) :=
  let r := {| colors := colors r; failed := true |} in
  err' <- printf r [Str (indent (Some p));
                    Val (aurora.BrightWhite (DisplayName p ++ ": "));
                    Val (aurora.Value_Red (aurora.Bold (errStr err)))] ;;
  ret (err', r).

#[global] Instance cli_Reporter : Reporter t := {|
  probes.Pass := Pass;
  probes.Warn := Warn;
  probes.Reject := Reject;
  probes.Error := Error
|}.

End cliReporter.

Module resultsCollector.

Record t := {
  results : list result.Probe;
  failed : bool
}.

(** [var c resultsCollector] *)
Definition zero : t := {| results := []; failed := false |}.

Definition Pass (r : t) (p : ProbeDesc) (v : option ProbedProp)
  : M (option error * t) :=
  let r := {| results := results r ++ [
                {| result.Path := probePath p;
                   result.DisplayName := DisplayName p;
                   result.Prop_ := propString v;
                   result.Message := "";
                   result.Category := result.ProbeCategoryPass;
                   result.Error := None |}];
              failed := failed r |} in
  ret (None, r).

Definition Warn (r : t) (p : ProbeDesc) (v : option ProbedProp)
  (msg : string) : M (option error * t) :=
  let r := {| results := results r ++ [
                {| result.Path := probePath p;
                   result.DisplayName := DisplayName p;
                   result.Prop_ := propString v;
                   result.Message := msg;
                   result.Category := result.ProbeCategoryWarning;
                   result.Error := None |}];
              failed := failed r |} in
  ret (None, r).

Definition Reject (r : t) (p : ProbeDesc) (v : option ProbedProp)
  (msg : string) : M (option error * t) :=
  let r := {| results := results r; failed := true |} in
  let r := {| results := results r ++ [
                {| result.Path := probePath p;
                   result.DisplayName := DisplayName p;
                   result.Prop_ := propString v;
                   result.Message := msg;
                   result.Category := result.ProbeCategoryRejected;
                   result.Error := None |}];
              failed := failed r |} in
  ret (None, r).

Definition Error (r : t) (p : ProbeDesc) (err : option error)
  : M (option error * t) :=
  let r := {| results := results r; failed := true |} in
  let r := {| results := results r ++ [
                {| result.Path := probePath p;
                   result.DisplayName := DisplayName p;
                   result.Prop_ := "";
                   result.Message := "";
                   result.Category := result.ProbeCategoryError;
                   result.Error := err |}];
              failed := failed r |} in
  ret (None, r).

#[global] Instance collector_Reporter : Reporter t := {|
  probes.Pass := Pass;
  probes.Warn := Warn;
  probes.Reject := Reject;
  probes.Error := Error
|}.

End resultsCollector.

Definition sysinfo_failed : error := errors.New "sysinfo failed".

Definition collectAndPrint (probe : probes.Probe)
  (marshal : list result.Probe -> string * option error)
  : M (option error) :=
  let c := resultsCollector.zero in
  '(err, c) <- Probe_Probe probe c ;;
  match err with
  | Some e => ret (Some e)
  | None =>
      if resultsCollector.failed c then ret (Some sysinfo_failed)
      else
        let (bytes, err) := marshal (resultsCollector.results c) in
        match err with
        | Some e => ret (Some e)
        | None => write bytes
        end
  end.

(** The [RunE] function of the command built by [NewSysinfoCmd];
    [sysinfoSpec] and [outputFormat] hold the parsed flags. *)
Definition RunE (X : Extern) (sysinfoSpec : K0sSysinfoSpec)
  (outputFormat : string) : M (option error) :=
  let sysinfoSpec :=
    {| ControllerRoleEnabled := ControllerRoleEnabled sysinfoSpec;
       WorkerRoleEnabled := WorkerRoleEnabled sysinfoSpec;
       DataDir := DataDir sysinfoSpec;
       AddDebugProbes := true |} in
  let probes := NewSysinfoProbes X sysinfoSpec in
  out <- OutOrStdout ;;
  if outputFormat =? "text" then
    let cli := {| cliReporter.colors :=
                    aurora.NewAurora (colored X) (IsTerminal X out);
                  cliReporter.failed := false |} in
    '(err, cli) <- Probe_Probe probes cli ;;
    match err with
    | Some e => ret (Some e)
    | None =>
        if cliReporter.failed cli then ret (Some sysinfo_failed)
        else ret None
    end
  else if outputFormat =? "json" then
    collectAndPrint probes (json_MarshalIndent X)
  else if outputFormat =? "yaml" then
    collectAndPrint probes (yaml_Marshal X)
  else
    ret (Some (errors.New ("unknown output format: " ++ Quote X outputFormat))).

(** * Properties *)

(** ** Helpers of the statements *)

(** [n] space characters. *)
Definition spaces (n : nat) : string := strings.repeat " " n.

(** A bold red value, as [Error] and [Reject] build it. *)
Definition boldRed (s : string) : aurora.Value :=
  {| aurora.value := s; aurora.fg := Some aurora.RedFg; aurora.bold := true |}.

(** The label every line of the human format starts with. *)
Definition label (r : cliReporter.t) (p : ProbeDesc) : string :=
  indent (Some p)
  ++ aurora.Sprint (cliReporter.colors r) (aurora.BrightWhite (DisplayName p ++ ": ")).

(** The first line feed of the text is its last character: the text is
    one line with its terminator. *)
Fixpoint single_line (s : string) : bool :=
  match s with
  | "" => false
  | String c s' =>
      if Ascii.eqb c (ascii_of_nat 10) then s' =? "" else single_line s'
  end.

(** The colour printer adds no line feed. *)
Definition keeps_lines (a : aurora.Aurora) : Prop :=
  forall v, strings.oneline (aurora.value v) = true ->
            strings.oneline (aurora.Sprint a v) = true.

(** The texts a callback carries: display name, property string and
    message, the message of [Error] being the text of its error. *)
Definition texts (c : Callback) : list string :=
  match c with
  | CallPass p v => [DisplayName p; propString v]
  | CallWarn p v msg | CallReject p v msg =>
      [DisplayName p; propString v; msg]
  | CallError p (Some e) => [DisplayName p; errors.Error e]
  | CallError p None => [DisplayName p]
  end.

(** The texts the arguments of a callback name: display name, property
    string and the message argument of [Warn] and [Reject]. *)
Definition stated_texts (c : Callback) : list string :=
  match c with
  | CallPass p v => [DisplayName p; propString v]
  | CallWarn p v msg | CallReject p v msg =>
      [DisplayName p; propString v; msg]
  | CallError p _ => [DisplayName p]
  end.

(** What the sink answers to a write of [line] in world [w]. *)
Definition answer (w : World) (line : string) : option error :=
  io.respond (stdout w) (io.written (stdout w)) line.

(** The world after one more write of [line]. *)
Definition after_write (w : World) (line : string) : World :=
  {| stdout := {| io.written := io.written (stdout w) ++ [line];
                  io.respond := io.respond (stdout w) |};
     invocations := invocations w;
     delivered := delivered w |}.

(** The category the collector is expected to file a callback under. *)
Definition category (c : Callback) : result.ProbeCategory :=
  match c with
  | CallPass _ _ => "pass"
  | CallWarn _ _ _ => "warning"
  | CallReject _ _ _ => "rejected"
  | CallError _ _ => "error"
  end.

(** The record the collector is expected to keep for a callback. *)
Definition recorded (c : Callback) : result.Probe :=
  match c with
  | CallPass p v =>
      {| result.Path := probePath p; result.DisplayName := DisplayName p;
         result.Prop_ := propString v; result.Message := "";
         result.Category := category c; result.Error := None |}
  | CallWarn p v msg | CallReject p v msg =>
      {| result.Path := probePath p; result.DisplayName := DisplayName p;
         result.Prop_ := propString v; result.Message := msg;
         result.Category := category c; result.Error := None |}
  | CallError p err =>
      {| result.Path := probePath p; result.DisplayName := DisplayName p;
         result.Prop_ := ""; result.Message := "";
         result.Category := category c; result.Error := err |}
  end.

(** The callbacks an engine makes, and what it returns, when every
    callback returns nil. *)
Fixpoint uninterrupted (e : Probe) : list Callback * option error :=
  match e with
  | Return res => ([], res)
  | Call c k => let (cs, res) := uninterrupted (k None) in (c :: cs, res)
  end.

(** The world after the engine was entered once and made the callbacks
    [cs], none of which wrote. *)
Definition after_probe (w : World) (cs : list Callback) : World :=
  {| stdout := stdout w;
     invocations := S (invocations w);
     delivered := delivered w ++ cs |}.

(** The flags as [RunE] hands them to [NewSysinfoProbes], and the reporter
    it builds for the text format. *)
Definition debug (sysinfoSpec : K0sSysinfoSpec) : K0sSysinfoSpec :=
  {| ControllerRoleEnabled := ControllerRoleEnabled sysinfoSpec;
     WorkerRoleEnabled := WorkerRoleEnabled sysinfoSpec;
     DataDir := DataDir sysinfoSpec;
     AddDebugProbes := true |}.
Definition cli_of (X : Extern) (w : World) : cliReporter.t :=
  {| cliReporter.colors :=
       aurora.NewAurora (colored X) (IsTerminal X (stdout w));
     cliReporter.failed := false |}.

(** *** Sample inputs *)

Definition kernel : ProbeDesc :=
  {| Path := ["os"; "kernel"]; DisplayName := "Linux kernel" |}.

(** A sink that accepts every write, and one that refuses every write. *)
Definition fresh : World :=
  {| stdout := {| io.written := []; io.respond := fun _ _ => None |};
     invocations := 0; delivered := [] |}.
Definition broken : World :=
  {| stdout := {| io.written := [];
                  io.respond := fun _ _ => Some (errors.New "broken pipe") |};
     invocations := 0; delivered := [] |}.

(** An encoder that shows the categories only. *)
Definition categories (rs : list result.Probe) : string * option error :=
  (String.concat "," (map result.Category rs), None).

(** An engine that passes one probe and returns normally, one that passes
    and then gives up, and one that rejects and then gives up. *)
Definition passing : Probe :=
  Call (CallPass kernel None) (fun _ => Return None).
Definition pass_then_abort : Probe :=
  Call (CallPass kernel None)
       (fun _ => Return (Some (errors.New "probe aborted"))).
Definition reject_then_abort : Probe :=
  Call (CallReject kernel None "too old")
       (fun _ => Return (Some (errors.New "probe aborted"))).

Definition disk : ProbeDesc :=
  {| Path := ["os"; "disk"; "free"]; DisplayName := "Free disk space" |}.

(** An engine that passes one probe, warns about the next and returns
    normally. *)
Definition pass_then_warn : Probe :=
  Call (CallPass kernel (Some {| String_ := "5.15" |}))
       (fun _ => Call (CallWarn disk (Some {| String_ := "1 GiB" |}) "low")
                      (fun _ => Return None)).

Definition rejecting : Probe :=
  Call (CallPass kernel None)
       (fun _ => Call (CallReject kernel None "too old")
                      (fun _ => Return None)).

(** An encoder that fails. *)
Definition unsupported (rs : list result.Probe) : string * option error :=
  ("", Some (errors.New "unsupported type")).

Definition plain : Extern :=
  {| NewSysinfoProbes := fun _ => passing;
     IsTerminal := fun _ => false;
     colored := aurora.clear;
     Quote := fun s => String (ascii_of_nat 34)
                         (s ++ String (ascii_of_nat 34) "");
     json_MarshalIndent := categories;
     yaml_Marshal := categories |}.

(** A colour printer that brackets the text. *)
Definition bracketed : aurora.Aurora :=
  {| aurora.Sprint := fun v => "<" ++ aurora.value v ++ ">" |}.

(** Collaborators whose engine passes one probe and rejects the next. *)
Definition strict : Extern :=
  {| NewSysinfoProbes := fun _ => rejecting;
     IsTerminal := fun _ => true;
     colored := bracketed;
     Quote := fun s => s;
     json_MarshalIndent := categories;
     yaml_Marshal := categories |}.

(** Collaborators whose engine rejects a probe and then gives up. *)
Definition aborting : Extern :=
  {| NewSysinfoProbes := fun _ => reject_then_abort;
     IsTerminal := fun _ => false;
     colored := aurora.clear;
     Quote := fun s => s;
     json_MarshalIndent := categories;
     yaml_Marshal := categories |}.

Definition flags : K0sSysinfoSpec :=
  {| ControllerRoleEnabled := true; WorkerRoleEnabled := true;
     DataDir := "/var/lib/k0s"; AddDebugProbes := false |}.

(** *** Statements about whole runs *)

(** The line the human reporter is expected to write for a callback under
    the colour configuration [a], its line feed included. *)
Definition rendered (a : aurora.Aurora) (c : Callback) : string :=
  match c with
  | CallPass p v =>
      indent (Some p)
      ++ aurora.Sprint a (aurora.BrightWhite (DisplayName p ++ ": "))
      ++ aurora.Sprint a (aurora.Green (propString v))
      ++ buildMsg (propString v) "pass" ""
      ++ strings.newline
  | CallWarn p v msg =>
      indent (Some p)
      ++ aurora.Sprint a (aurora.BrightWhite (DisplayName p ++ ": "))
      ++ aurora.Sprint a (aurora.Yellow (propString v))
      ++ buildMsg (propString v) "warning" msg
      ++ strings.newline
  | CallReject p v msg =>
      indent (Some p)
      ++ aurora.Sprint a (aurora.BrightWhite (DisplayName p ++ ": "))
      ++ aurora.Sprint a (boldRed (propString v))
      ++ buildMsg (propString v) "rejected" msg
      ++ strings.newline
  | CallError p err =>
      indent (Some p)
      ++ aurora.Sprint a (aurora.BrightWhite (DisplayName p ++ ": "))
      ++ aurora.Sprint a (boldRed (cliReporter.errStr err))
      ++ strings.newline
  end.

(** The sink takes every write. *)
Definition accepting (w : World) : Prop :=
  forall (before : list string) (p : string),
    io.respond (stdout w) before p = None.

(** The world after the lines [ls] were written one by one. *)
Definition after_lines (w : World) (ls : list string) : World :=
  {| stdout := {| io.written := io.written (stdout w) ++ ls;
                  io.respond := io.respond (stdout w) |};
     invocations := invocations w;
     delivered := delivered w |}.

(** A record filed under [rejected] or [error]. *)
Definition failure_record (rec : result.Probe) : bool :=
  (result.Category rec =? result.ProbeCategoryRejected)
  || (result.Category rec =? result.ProbeCategoryError).

(** The flag of a collector agrees with its records. *)
Definition flag_agrees (r : resultsCollector.t) : Prop :=
  resultsCollector.failed r =
    existsb failure_record (resultsCollector.results r).

Definition no_error (rec : result.Probe) : bool :=
  match result.Error rec with
  | None => true
  | Some _ => false
  end.

(** The shape of a record: filed under one of the four categories; a
    message under [warning] and [rejected] only; a property string under
    every category but [error]; an error under [error] only. *)
Definition shaped (rec : result.Probe) : bool :=
  ((result.Category rec =? result.ProbeCategoryPass)
   && (result.Message rec =? "") && no_error rec)
  || ((result.Category rec =? result.ProbeCategoryWarning) && no_error rec)
  || ((result.Category rec =? result.ProbeCategoryRejected) && no_error rec)
  || ((result.Category rec =? result.ProbeCategoryError)
      && (result.Prop_ rec =? "") && (result.Message rec =? "")).

(** The same collaborators with another terminal test and another colour
    printer. *)
Definition recolored (X : Extern) (isTerminal : io.Writer -> bool)
  (a : aurora.Aurora) : Extern :=
  {| NewSysinfoProbes := NewSysinfoProbes X;
     IsTerminal := isTerminal;
     colored := a;
     Quote := Quote X;
     json_MarshalIndent := json_MarshalIndent X;
     yaml_Marshal := yaml_Marshal X |}.

(** A descriptor one level below [p]. *)
Definition child (p : ProbeDesc) (segment name : string) : ProbeDesc :=
  {| Path := Path p ++ [segment]; DisplayName := name |}.

(** ** Strings *)

Lemma append_empty_r (s : string) : s ++ "" = s.
Proof. induction s as [|c s IH]; simpl; [reflexivity | now rewrite IH]. Qed.

Lemma append_assoc (a b c : string) : (a ++ b) ++ c = a ++ (b ++ c).
Proof. induction a as [|x a IH]; simpl; [reflexivity | now rewrite IH]. Qed.

Lemma repeat_two_spaces (n : nat) : strings.repeat "  " n = spaces (2 * n).
Proof.
  induction n as [|n IH]; [reflexivity|].
  replace (2 * S n) with (S (S (2 * n))) by lia.
  unfold spaces in *. simpl. now rewrite IH.
Qed.

Lemma spaces_length (n : nat) : String.length (spaces n) = n.
Proof.
  unfold spaces. induction n as [|n IH]; simpl; [reflexivity | now f_equal].
Qed.

Lemma oneline_app (a b : string) :
  strings.oneline (a ++ b) = strings.oneline a && strings.oneline b.
Proof.
  induction a as [|c a IH]; simpl; [reflexivity|].
  now rewrite IH, andb_assoc.
Qed.

Lemma oneline_spaces (n : nat) : strings.oneline (spaces n) = true.
Proof.
  unfold spaces. induction n as [|n IH]; simpl; [reflexivity | exact IH].
Qed.

(** ** [indent] *)

Lemma indent_nil : indent None = "".
Proof. reflexivity. Qed.

Example indent_depth3 :
  indent (Some {| Path := ["a"; "b"; "c"]; DisplayName := "x" |}) = "    ".
Proof. reflexivity. Qed.

Lemma indent_spaces (p : ProbeDesc) :
  indent (Some p) = spaces (2 * (List.length (Path p) - 1)).
Proof.
  unfold indent, strings.Repeat.
  destruct (Z.ltb_spec (Z.of_nat (List.length (Path p)) - 1) 1) as [H|H].
  - replace (List.length (Path p) - 1) with 0 by lia. reflexivity.
  - replace (Z.to_nat (Z.of_nat (List.length (Path p)) - 1))
      with (List.length (Path p) - 1) by lia.
    apply repeat_two_spaces.
Qed.

Lemma oneline_indent (p : ProbeDesc) :
  strings.oneline (indent (Some p)) = true.
Proof. rewrite indent_spaces. apply oneline_spaces. Qed.

(** C5. The indentation of a descriptor depends on the length [N] of its
    path only: it is empty for [N <= 1] and is [2 * (N - 1)] spaces for
    [N > 1]. *)
Theorem C5_indent_path_length (p : ProbeDesc) :
  indent (Some p) =
    (if (List.length (Path p) <=? 1)%nat then ""
     else spaces (2 * (List.length (Path p) - 1)))
  /\ String.length (indent (Some p)) = 2 * (List.length (Path p) - 1).
Proof.
  rewrite indent_spaces. split.
  - destruct (Nat.leb_spec (List.length (Path p)) 1) as [H|H].
    + replace (List.length (Path p) - 1) with 0 by lia. reflexivity.
    + reflexivity.
  - apply spaces_length.
Qed.

(** ** [buildMsg] *)

Lemma buildMsg_shape (prop category msg : string) :
  buildMsg prop category msg =
    (if prop =? "" then "" else " ")
    ++ "(" ++ category ++ (if msg =? "" then "" else ": " ++ msg) ++ ")".
Proof.
  unfold buildMsg, strings.WriteRune, strings.WriteString.
  destruct (prop =? ""), (msg =? ""); simpl;
    repeat rewrite append_assoc; simpl; try rewrite append_empty_r;
    reflexivity.
Qed.

Example buildMsg_warning :
  buildMsg "4.19" "warning" "too old" = " (warning: too old)".
Proof. reflexivity. Qed.

Example buildMsg_no_prop : buildMsg "" "rejected" "" = "(rejected)".
Proof. reflexivity. Qed.

(** ** The human reporter *)

Lemma printf_writes (r : cliReporter.t) (args : list Arg) (w : World) :
  cliReporter.printf r args w =
    (answer w (cliReporter.Sprintf r args),
     after_write w (cliReporter.Sprintf r args)).
Proof. reflexivity. Qed.

Example Error_nil_plain :
  io.written (stdout (snd (cliReporter.Error
    {| cliReporter.colors := aurora.clear; cliReporter.failed := false |}
    {| Path := ["os"; "kernel"]; DisplayName := "Linux" |} None
    {| stdout := {| io.written := []; io.respond := fun _ _ => None |};
       invocations := 0; delivered := [] |})))
  = ["  Linux: error" ++ strings.newline].
Proof. reflexivity. Qed.

(** C6. [cliReporter.Error] writes the label of the descriptor followed by
    the bold red text and a line feed, where the text is the word
    ["error"] for a nil error and for an error whose text is empty, and
    ["error: <text>"] for an error whose text is not empty.  Without
    colours the line is indentation, display name, [": "], that text. *)
Theorem C6_Error_text (r : cliReporter.t) (p : ProbeDesc)
  (err : option error) (w : World) :
  let text :=
    match err with
    | None => "error"
    | Some e => if errors.Error e =? "" then "error"
                else "error: " ++ errors.Error e
    end in
  cliReporter.errStr err = text
  /\ snd (cliReporter.Error r p err w) =
       after_write w
         (label r p
          ++ aurora.Sprint (cliReporter.colors r) (boldRed text)
          ++ strings.newline)
  /\ snd (cliReporter.Error
            {| cliReporter.colors := aurora.clear;
               cliReporter.failed := cliReporter.failed r |} p err w) =
       after_write w
         (indent (Some p) ++ DisplayName p ++ ": " ++ text
          ++ strings.newline).
Proof.
  intros text.
  assert (E : cliReporter.errStr err = text).
  { unfold cliReporter.errStr, text. destruct err as [e|]; [|reflexivity].
    destruct (errors.Error e =? ""); reflexivity. }
  split; [exact E|].
  unfold cliReporter.Error, bind. rewrite !printf_writes. simpl.
  unfold cliReporter.Sprintf, label. simpl. rewrite E.
  repeat rewrite append_assoc. split; reflexivity.
Qed.

(** C7. [Warn] and [Reject] write the label, the coloured property string
    and then the annotation: a space exactly when the property string is
    not empty, then ["(warning)"] or ["(rejected)"] for an empty message
    and ["(warning: <message>)"] or ["(rejected: <message>)"] otherwise;
    the line feed follows. *)
Theorem C7_Warn_Reject_suffix (r : cliReporter.t) (p : ProbeDesc)
  (v : option ProbedProp) (msg : string) (w : World) :
  let sep := if propString v =? "" then "" else " " in
  snd (cliReporter.Warn r p v msg w) =
    after_write w
      ((label r p
        ++ aurora.Sprint (cliReporter.colors r) (aurora.Yellow (propString v)))
       ++ sep
       ++ (if msg =? "" then "(warning)" else "(warning: " ++ msg ++ ")")
       ++ strings.newline)
  /\ snd (cliReporter.Reject r p v msg w) =
    after_write w
      ((label r p
        ++ aurora.Sprint (cliReporter.colors r) (boldRed (propString v)))
       ++ sep
       ++ (if msg =? "" then "(rejected)" else "(rejected: " ++ msg ++ ")")
       ++ strings.newline).
Proof.
  intros sep. unfold sep.
  unfold cliReporter.Warn, cliReporter.Reject, bind.
  rewrite !printf_writes.
  unfold cliReporter.Sprintf, label, cliReporter.show, snd.
  cbn [map String.concat cliReporter.colors].
  rewrite !buildMsg_shape.
  destruct (propString v =? ""), (msg =? "");
    split; f_equal; repeat rewrite append_assoc; reflexivity.
Qed.

Lemma single_line_terminated (body : string) :
  strings.oneline body = true ->
  single_line (body ++ strings.newline) = true.
Proof.
  induction body as [|c body IH]; simpl; [reflexivity|].
  intros H. apply andb_true_iff in H as [Hc Hb].
  apply negb_true_iff in Hc. rewrite Hc. exact (IH Hb).
Qed.

(** What one callback does to the human reporter and to the world: one
    write of one text, the sink's answer handed back, the flag raised by
    [Reject] and [Error] only. *)
Lemma cli_deliver (r : cliReporter.t) (c : Callback) (w : World) :
  exists body,
    deliver r c w =
      ((answer w (body ++ strings.newline),
        {| cliReporter.colors := cliReporter.colors r;
           cliReporter.failed := cliReporter.failed r || failing c |}),
       after_write w (body ++ strings.newline))
    /\ (keeps_lines (cliReporter.colors r) ->
        forallb strings.oneline (texts c) = true ->
        strings.oneline body = true).
Proof.
  destruct r as [a f].
  assert (L : forall p, keeps_lines a ->
            strings.oneline (DisplayName p) = true ->
            strings.oneline
              (aurora.Sprint a (aurora.BrightWhite (DisplayName p ++ ": ")))
            = true).
  { intros p K Hn. apply K. simpl. now rewrite oneline_app, Hn. }
  destruct c as [p v|p v msg|p v msg|p err]; simpl.
  - exists (indent (Some p)
            ++ aurora.Sprint a (aurora.BrightWhite (DisplayName p ++ ": "))
            ++ aurora.Sprint a (aurora.Green (propString v))
            ++ buildMsg (propString v) "pass" "").
    split.
    + unfold cliReporter.Pass, bind. rewrite printf_writes.
      unfold cliReporter.Sprintf. simpl. rewrite orb_false_r.
      repeat rewrite append_assoc. reflexivity.
    + intros K H. simpl in H.
      apply andb_true_iff in H as [Hn H].
      apply andb_true_iff in H as [Hp _].
      rewrite !oneline_app, oneline_indent, (L p K Hn), (K (aurora.Green (propString v)) Hp).
      rewrite buildMsg_shape. destruct (propString v =? ""); reflexivity.
  - exists (indent (Some p)
            ++ aurora.Sprint a (aurora.BrightWhite (DisplayName p ++ ": "))
            ++ aurora.Sprint a (aurora.Yellow (propString v))
            ++ buildMsg (propString v) "warning" msg).
    split.
    + unfold cliReporter.Warn, bind. rewrite printf_writes.
      unfold cliReporter.Sprintf. simpl. rewrite orb_false_r.
      repeat rewrite append_assoc. reflexivity.
    + intros K H. simpl in H.
      apply andb_true_iff in H as [Hn H].
      apply andb_true_iff in H as [Hp H].
      apply andb_true_iff in H as [Hm _].
      rewrite !oneline_app, oneline_indent, (L p K Hn), (K (aurora.Yellow (propString v)) Hp).
      rewrite buildMsg_shape.
      destruct (propString v =? ""), (msg =? ""); simpl;
        rewrite ?oneline_app, ?Hm; reflexivity.
  - exists (indent (Some p)
            ++ aurora.Sprint a (aurora.BrightWhite (DisplayName p ++ ": "))
            ++ aurora.Sprint a (boldRed (propString v))
            ++ buildMsg (propString v) "rejected" msg).
    split.
    + unfold cliReporter.Reject, bind. rewrite printf_writes.
      unfold cliReporter.Sprintf. simpl. rewrite orb_true_r.
      repeat rewrite append_assoc. reflexivity.
    + intros K H. simpl in H.
      apply andb_true_iff in H as [Hn H].
      apply andb_true_iff in H as [Hp H].
      apply andb_true_iff in H as [Hm _].
      rewrite !oneline_app, oneline_indent, (L p K Hn), (K (boldRed (propString v)) Hp).
      rewrite buildMsg_shape.
      destruct (propString v =? ""), (msg =? ""); simpl;
        rewrite ?oneline_app, ?Hm; reflexivity.
  - exists (indent (Some p)
            ++ aurora.Sprint a (aurora.BrightWhite (DisplayName p ++ ": "))
            ++ aurora.Sprint a (boldRed (cliReporter.errStr err))).
    split.
    + unfold cliReporter.Error, bind. rewrite printf_writes.
      unfold cliReporter.Sprintf. simpl. rewrite orb_true_r.
      repeat rewrite append_assoc. reflexivity.
    + intros K H.
      assert (Hn : strings.oneline (DisplayName p) = true).
      { destruct err; simpl in H; now apply andb_true_iff in H as [Hn _]. }
      rewrite !oneline_app, oneline_indent, (L p K Hn). apply K. simpl.
      unfold cliReporter.errStr. destruct err as [e|]; [|reflexivity].
      destruct (errors.Error e =? ""); [reflexivity|].
      simpl in H. apply andb_true_iff in H as [_ H].
      apply andb_true_iff in H as [He _]. simpl. exact He.
Qed.

Lemma keeps_lines_clear : keeps_lines aurora.clear.
Proof. intros v H. exact H. Qed.

(** C8. Every callback of the human reporter makes exactly one write to the
    sink and hands back what the sink answered to that write, the error of
    a refused write included, whatever its arguments hold.  The text
    written is one line ended by its only line feed when display name,
    property string, message and the text of the error handed to [Error]
    hold no line feed and the colour printer adds none; without colours the
    condition on the texts is enough. *)
Theorem C8_one_line_per_callback (r : cliReporter.t) (c : Callback)
  (w : World) :
  exists line,
    snd (deliver r c w) = after_write w line
    /\ fst (fst (deliver r c w)) = answer w line
    /\ (forallb strings.oneline (texts c) = true ->
        keeps_lines (cliReporter.colors r) ->
        single_line line = true)
    /\ (forallb strings.oneline (texts c) = true ->
        cliReporter.colors r = aurora.clear ->
        single_line line = true).
Proof.
  destruct (cli_deliver r c w) as [body [E O]].
  exists (body ++ strings.newline). rewrite E. simpl.
  split; [reflexivity|]. split; [reflexivity|]. split.
  - intros Hs K. apply single_line_terminated, O; assumption.
  - intros Hs Hc. apply single_line_terminated, O; [|assumption].
    rewrite Hc. apply keeps_lines_clear.
Qed.

Lemma C8_one_line_per_callback_witness :
  exists line,
    snd (deliver {| cliReporter.colors := aurora.clear;
                    cliReporter.failed := false |}
                 (CallError kernel (Some (errors.New "no such file")))
                 broken) = after_write broken line
    /\ fst (fst (deliver {| cliReporter.colors := aurora.clear;
                            cliReporter.failed := false |}
                     (CallError kernel (Some (errors.New "no such file")))
                     broken)) = answer broken line
    /\ single_line line = true.
Proof.
  destruct (C8_one_line_per_callback
              {| cliReporter.colors := aurora.clear;
                 cliReporter.failed := false |}
              (CallError kernel (Some (errors.New "no such file")))
              broken) as [line [W [A [S _]]]].
  exists line. split; [exact W|]. split; [exact A|].
  apply S.
  - reflexivity.
  - intros v H. exact H.
Defined.

(** With line feeds ruled out of display name, property string and
    message only, [Error] with an error text of two lines writes two
    lines, also without colours. *)
Lemma C8_counterexample :
  ~ (forall (r : cliReporter.t) (c : Callback) (w : World),
       keeps_lines (cliReporter.colors r) ->
       forallb strings.oneline (stated_texts c) = true ->
       exists line,
         single_line line = true
         /\ snd (deliver r c w) = after_write w line
         /\ fst (fst (deliver r c w)) = answer w line).
Proof.
  intros H.
  destruct (H {| cliReporter.colors := aurora.clear;
                 cliReporter.failed := false |}
              (CallError kernel
                 (Some (errors.New ("no such file" ++ strings.newline
                                    ++ "exit status 1"))))
              fresh) as [line [S [E _]]].
  - exact keeps_lines_clear.
  - reflexivity.
  - cbv in E. injection E as E. subst line. discriminate S.
Qed.

Example Warn_refused :
  fst (fst (deliver {| cliReporter.colors := aurora.clear;
                       cliReporter.failed := false |}
              (CallWarn kernel (Some {| String_ := "4.19" |}) "too old")
              broken)) = Some (errors.New "broken pipe").
Proof. reflexivity. Qed.

(** The text of the error is part of the assumption: an error text of two
    lines is written as it is. *)
Example Error_two_line_text :
  io.written (stdout (snd (deliver
      {| cliReporter.colors := aurora.clear; cliReporter.failed := false |}
      (CallError kernel
         (Some (errors.New ("no such file" ++ strings.newline
                            ++ "exit status 1"))))
      fresh))) =
    ["  Linux kernel: error: no such file" ++ strings.newline
     ++ "exit status 1" ++ strings.newline].
Proof. reflexivity. Qed.

(** ** The collector *)

Lemma collector_deliver (r : resultsCollector.t) (c : Callback) (w : World) :
  deliver r c w =
    ((None,
      {| resultsCollector.results :=
           resultsCollector.results r ++ [recorded c];
         resultsCollector.failed :=
           resultsCollector.failed r || failing c |}),
     w).
Proof.
  destruct r as [rs f], c as [p v|p v msg|p v msg|p err]; simpl;
    unfold resultsCollector.Pass, resultsCollector.Warn,
      resultsCollector.Reject, resultsCollector.Error, ret; simpl;
    rewrite ?orb_false_r, ?orb_true_r; reflexivity.
Qed.

Lemma collector_run (e : Probe) :
  forall (r : resultsCollector.t) (w : World),
    run e r w =
      ((snd (uninterrupted e),
        {| resultsCollector.results :=
             resultsCollector.results r
             ++ map recorded (fst (uninterrupted e));
           resultsCollector.failed :=
             resultsCollector.failed r
             || existsb failing (fst (uninterrupted e)) |}),
       {| stdout := stdout w;
          invocations := invocations w;
          delivered := delivered w ++ fst (uninterrupted e) |}).
Proof.
  induction e as [res|c k IH]; intros [rs f] [o n d]; simpl.
  - unfold ret. now rewrite !app_nil_r, orb_false_r.
  - unfold bind, note. simpl. rewrite collector_deliver. simpl.
    rewrite IH. destruct (uninterrupted (k None)) as [cs res]. simpl.
    now rewrite <- !app_assoc, orb_assoc.
Qed.

Lemma collector_Probe (e : Probe) (w : World) :
  Probe_Probe e resultsCollector.zero w =
    ((snd (uninterrupted e),
      {| resultsCollector.results := map recorded (fst (uninterrupted e));
         resultsCollector.failed := existsb failing (fst (uninterrupted e)) |}),
     after_probe w (fst (uninterrupted e))).
Proof.
  unfold Probe_Probe, bind, enter. rewrite collector_run. reflexivity.
Qed.

(** The whole of [collectAndPrint], case by case. *)
Lemma collectAndPrint_cases (probe : Probe)
  (marshal : list result.Probe -> string * option error) (w : World) :
  let cs := fst (uninterrupted probe) in
  let w' := after_probe w cs in
  collectAndPrint probe marshal w =
    match snd (uninterrupted probe) with
    | Some e => (Some e, w')
    | None =>
        if existsb failing cs then (Some sysinfo_failed, w')
        else
          match snd (marshal (map recorded cs)) with
          | Some e => (Some e, w')
          | None =>
              (answer w' (fst (marshal (map recorded cs))),
               after_write w' (fst (marshal (map recorded cs))))
          end
    end.
Proof.
  intros cs w'. unfold collectAndPrint, bind.
  rewrite collector_Probe. fold cs. fold w'.
  destruct (snd (uninterrupted probe)) as [e|]; [reflexivity|].
  simpl. destruct (existsb failing cs); [reflexivity|].
  destruct (marshal (map recorded cs)) as [bytes [e|]]; reflexivity.
Qed.

(** C9. A callback of the collector puts exactly one record, the one of
    that callback, after the records the collector holds, which stay as
    they are; over a whole run of an engine the records held before are a
    prefix of the records held after, one more for each callback. *)
Theorem C9_collector_appends (r : resultsCollector.t) (c : Callback)
  (e : Probe) (w : World) :
  resultsCollector.results (snd (fst (deliver r c w))) =
    (resultsCollector.results r ++ [recorded c])%list
  /\ firstn (List.length (resultsCollector.results r))
            (resultsCollector.results (snd (fst (deliver r c w)))) =
       resultsCollector.results r
  /\ resultsCollector.results (snd (fst (run e r w))) =
       (resultsCollector.results r
        ++ map recorded (fst (uninterrupted e)))%list
  /\ List.length (resultsCollector.results (snd (fst (run e r w)))) =
       List.length (resultsCollector.results r)
       + List.length (fst (uninterrupted e)).
Proof.
  rewrite collector_deliver, collector_run. simpl. repeat split.
  - rewrite firstn_app, Nat.sub_diag, firstn_all. simpl.
    apply app_nil_r.
  - now rewrite length_app, length_map.
Qed.

(** C10. No callback of the collector returns an error, and what
    [collectAndPrint] returns is nil, or the error the engine returned, or
    the aggregate error, or the error of the encoder, or what the sink
    answered to the single write. *)
Theorem C10_collector_never_fails (r : resultsCollector.t) (c : Callback)
  (probe : Probe) (marshal : list result.Probe -> string * option error)
  (w : World) :
  let out := Probe_Probe probe resultsCollector.zero w in
  let m := marshal (resultsCollector.results (snd (fst out))) in
  let err := fst (collectAndPrint probe marshal w) in
  fst (fst (deliver r c w)) = None
  /\ (err = None
      \/ (err = fst (fst out) /\ snd (collectAndPrint probe marshal w) = snd out)
      \/ (err = Some sysinfo_failed
          /\ snd (collectAndPrint probe marshal w) = snd out)
      \/ (err = snd m /\ snd (collectAndPrint probe marshal w) = snd out)
      \/ (err = answer (snd out) (fst m)
          /\ snd (collectAndPrint probe marshal w) =
               after_write (snd out) (fst m))).
Proof.
  cbv zeta.
  rewrite collector_deliver, collectAndPrint_cases, collector_Probe. simpl.
  split; [reflexivity|].
  destruct (snd (uninterrupted probe)) as [e|]; [right; left; now split|].
  destruct (existsb failing (fst (uninterrupted probe)));
    [right; right; left; now split|].
  destruct (snd (marshal (map recorded (fst (uninterrupted probe)))))
    as [e|] eqn:E.
  - right; right; right; left. now split.
  - right; right; right; right. now split.
Qed.

(** C1. When the callbacks of a run hold a [Reject] or an [Error],
    [collectAndPrint] writes nothing, and it returns the aggregate error
    provided the engine itself returned nil; an error returned by the
    engine is returned as it is. *)
Theorem C1_failure_writes_nothing (probe : Probe)
  (marshal : list result.Probe -> string * option error) (w : World) :
  existsb failing (fst (uninterrupted probe)) = true ->
  delivered (snd (collectAndPrint probe marshal w)) =
    (delivered w ++ fst (uninterrupted probe))%list
  /\ stdout (snd (collectAndPrint probe marshal w)) = stdout w
  /\ fst (collectAndPrint probe marshal w) =
       match snd (uninterrupted probe) with
       | Some e => Some e
       | None => Some sysinfo_failed
       end.
Proof.
  intros F. rewrite collectAndPrint_cases, F.
  destruct (snd (uninterrupted probe)); repeat split; reflexivity.
Qed.

Lemma C1_failure_writes_nothing_witness :
  delivered (snd (collectAndPrint rejecting categories fresh)) =
    (delivered fresh ++ fst (uninterrupted rejecting))%list
  /\ stdout (snd (collectAndPrint rejecting categories fresh)) = stdout fresh
  /\ fst (collectAndPrint rejecting categories fresh) =
       match snd (uninterrupted rejecting) with
       | Some e => Some e
       | None => Some sysinfo_failed
       end.
Proof.
  apply (C1_failure_writes_nothing rejecting categories fresh). reflexivity.
Defined.

(** An engine that rejects a probe and then returns an error of its own:
    [collectAndPrint] returns that error, not the aggregate one. *)
Lemma C1_counterexample :
  ~ (forall (probe : Probe)
       (marshal : list result.Probe -> string * option error) (w : World),
       existsb failing (fst (uninterrupted probe)) = true ->
       fst (collectAndPrint probe marshal w) = Some sysinfo_failed
       /\ stdout (snd (collectAndPrint probe marshal w)) = stdout w).
Proof.
  intros H.
  destruct (H reject_then_abort categories fresh) as [E _];
    [reflexivity|].
  cbv in E. discriminate E.
Qed.

Example collect_passing :
  collectAndPrint passing categories fresh =
    (None, after_write (after_probe fresh [CallPass kernel None]) "pass").
Proof. reflexivity. Qed.

Example collect_pass_then_warn :
  collectAndPrint pass_then_warn categories fresh =
    (None,
     after_write
       (after_probe fresh
          [CallPass kernel (Some {| String_ := "5.15" |});
           CallWarn disk (Some {| String_ := "1 GiB" |}) "low"])
       "pass,warning").
Proof. reflexivity. Qed.

(** C2. When the callbacks of a run hold no [Reject] and no [Error]:
    if the engine itself returned nil and the encoder returned no error,
    [collectAndPrint] makes exactly one write, of the encoding of the
    records, and returns what the sink answered to it (nil when the sink
    took the write); if the engine returned an error of its own, or else
    the encoder returned one, that error is returned and nothing is
    written.  In every case there is one record for each callback, in the
    order of the callbacks, each filed under the category of its callback,
    ["pass"] or ["warning"]. *)
Theorem C2_document_of_records (probe : Probe)
  (marshal : list result.Probe -> string * option error) (w : World) :
  existsb failing (fst (uninterrupted probe)) = false ->
  collectAndPrint probe marshal w =
    match snd (uninterrupted probe) with
    | Some e => (Some e, after_probe w (fst (uninterrupted probe)))
    | None =>
        match snd (marshal (map recorded (fst (uninterrupted probe)))) with
        | Some e => (Some e, after_probe w (fst (uninterrupted probe)))
        | None =>
            (answer (after_probe w (fst (uninterrupted probe)))
               (fst (marshal (map recorded (fst (uninterrupted probe))))),
             after_write (after_probe w (fst (uninterrupted probe)))
               (fst (marshal (map recorded (fst (uninterrupted probe))))))
        end
    end
  /\ stdout (after_probe w (fst (uninterrupted probe))) = stdout w
  /\ resultsCollector.results
       (snd (fst (Probe_Probe probe resultsCollector.zero w))) =
       map recorded (fst (uninterrupted probe))
  /\ List.length (map recorded (fst (uninterrupted probe))) =
       List.length (fst (uninterrupted probe))
  /\ map result.Category (map recorded (fst (uninterrupted probe))) =
       map category (fst (uninterrupted probe))
  /\ Forall (fun c => category c = "pass" \/ category c = "warning")
            (fst (uninterrupted probe)).
Proof.
  intros F. rewrite collectAndPrint_cases, collector_Probe, F.
  split; [reflexivity|]. split; [reflexivity|]. split; [reflexivity|].
  split; [apply length_map|]. split.
  - rewrite map_map. apply map_ext. now intros [p v|p v msg|p v msg|p err].
  - apply Forall_forall. intros c Hc.
    assert (Fc : failing c = false).
    { destruct (failing c) eqn:E; [|reflexivity].
      rewrite <- F. symmetry. apply existsb_exists. now exists c. }
    destruct c; simpl in *; try discriminate; auto.
Qed.

Lemma C2_document_of_records_witness :
  collectAndPrint pass_then_warn categories fresh =
    (None,
     after_write
       (after_probe fresh
          [CallPass kernel (Some {| String_ := "5.15" |});
           CallWarn disk (Some {| String_ := "1 GiB" |}) "low"])
       "pass,warning")
  /\ map result.Category
       (resultsCollector.results
          (snd (fst (Probe_Probe pass_then_warn resultsCollector.zero
                       fresh)))) =
       ["pass"; "warning"].
Proof.
  destruct (C2_document_of_records pass_then_warn categories fresh eq_refl)
    as [E [_ [R [_ [C _]]]]].
  split.
  - exact E.
  - rewrite R. exact C.
Defined.

(** Without a [Reject] or an [Error] the structured path still fails, and
    leaves no document, when the engine returns an error of its own; it
    fails when the sink refuses the write; it fails, and writes nothing,
    when the encoder fails. *)
Lemma C2_counterexample :
  ~ (forall (probe : Probe)
       (marshal : list result.Probe -> string * option error) (w : World),
       existsb failing (fst (uninterrupted probe)) = false ->
       fst (collectAndPrint probe marshal w) = None
       /\ io.written (stdout (snd (collectAndPrint probe marshal w))) =
            (io.written (stdout w)
             ++ [fst (marshal (map recorded (fst (uninterrupted probe))))])%list)
  /\ ~ (forall (probe : Probe)
       (marshal : list result.Probe -> string * option error) (w : World),
       existsb failing (fst (uninterrupted probe)) = false ->
       snd (uninterrupted probe) = None ->
       fst (collectAndPrint probe marshal w) = None)
  /\ ~ (forall (probe : Probe)
       (marshal : list result.Probe -> string * option error) (w : World),
       existsb failing (fst (uninterrupted probe)) = false ->
       snd (uninterrupted probe) = None ->
       io.respond (stdout w) = (fun _ _ => None) ->
       fst (collectAndPrint probe marshal w) = None).
Proof.
  repeat split; intros H.
  - destruct (H pass_then_abort categories fresh) as [E _]; [reflexivity|].
    cbv in E. discriminate E.
  - specialize (H passing categories broken eq_refl eq_refl).
    cbv in H. discriminate H.
  - specialize (H passing unsupported fresh eq_refl eq_refl eq_refl).
    cbv in H. discriminate H.
Qed.

(** ** The command *)

(** C4. For an output format other than ["text"], ["json"] and ["yaml"]
    the command returns the error ["unknown output format: <quoted
    format>"] and leaves the world as it was: the engine is not entered, no
    callback is made, nothing is written. *)
Theorem C4_unknown_format (X : Extern) (sysinfoSpec : K0sSysinfoSpec)
  (outputFormat : string) (w : World) :
  outputFormat <> "text" ->
  outputFormat <> "json" ->
  outputFormat <> "yaml" ->
  RunE X sysinfoSpec outputFormat w =
    (Some (errors.New ("unknown output format: " ++ Quote X outputFormat)), w)
  /\ invocations (snd (RunE X sysinfoSpec outputFormat w)) = invocations w
  /\ delivered (snd (RunE X sysinfoSpec outputFormat w)) = delivered w
  /\ stdout (snd (RunE X sysinfoSpec outputFormat w)) = stdout w.
Proof.
  intros Ht Hj Hy.
  apply String.eqb_neq in Ht, Hj, Hy.
  assert (E : RunE X sysinfoSpec outputFormat w =
    (Some (errors.New ("unknown output format: " ++ Quote X outputFormat)),
     w)).
  { unfold RunE, bind, OutOrStdout. now rewrite Ht, Hj, Hy. }
  rewrite E. repeat split; reflexivity.
Qed.

Lemma C4_unknown_format_witness :
  RunE plain flags "csv" fresh =
    (Some (errors.New ("unknown output format: " ++ Quote plain "csv")), fresh)
  /\ invocations (snd (RunE plain flags "csv" fresh)) = invocations fresh
  /\ delivered (snd (RunE plain flags "csv" fresh)) = delivered fresh
  /\ stdout (snd (RunE plain flags "csv" fresh)) = stdout fresh.
Proof.
  apply (C4_unknown_format plain flags "csv" fresh); discriminate.
Defined.

Example RunE_json_passing :
  RunE plain flags "json" fresh =
    (None, after_write (after_probe fresh [CallPass kernel None]) "pass").
Proof. reflexivity. Qed.

Example RunE_text_passing :
  RunE plain flags "text" fresh =
    (None,
     after_write (after_probe fresh [CallPass kernel None])
       ("  Linux kernel: (pass)" ++ strings.newline)).
Proof. reflexivity. Qed.

(** ** The failure flag *)

Lemma cli_run (e : Probe) :
  forall (r : cliReporter.t) (w : World),
  exists cbs,
    delivered (snd (run e r w)) = (delivered w ++ cbs)%list
    /\ cliReporter.failed (snd (fst (run e r w))) =
         cliReporter.failed r || existsb failing cbs
    /\ invocations (snd (run e r w)) = invocations w.
Proof.
  induction e as [res|c k IH]; intros r w.
  - exists []. simpl. now rewrite app_nil_r, orb_false_r.
  - simpl. unfold bind at 1. unfold note.
    unfold bind.
    destruct (cli_deliver r c
                {| stdout := stdout w; invocations := invocations w;
                   delivered := delivered w ++ [c] |}) as [body [E _]].
    rewrite E.
    match goal with
    | |- context [run (k ?a) ?r' ?w'] =>
        destruct (IH a r' w') as [cbs [D [F I]]]
    end.
    exists (c :: cbs). rewrite D, F, I. simpl.
    now rewrite <- app_assoc, orb_assoc.
Qed.

Lemma RunE_text (X : Extern) (sysinfoSpec : K0sSysinfoSpec) (w : World) :
  fst (RunE X sysinfoSpec "text" w) =
    match fst (fst (Probe_Probe (NewSysinfoProbes X (debug sysinfoSpec))
                      (cli_of X w) w)) with
    | Some e => Some e
    | None =>
        if cliReporter.failed
             (snd (fst (Probe_Probe (NewSysinfoProbes X (debug sysinfoSpec))
                          (cli_of X w) w)))
        then Some sysinfo_failed
        else None
    end.
Proof.
  unfold RunE, bind at 1, OutOrStdout. simpl. unfold bind at 1.
  fold (debug sysinfoSpec). fold (cli_of X w).
  destruct (Probe_Probe (NewSysinfoProbes X (debug sysinfoSpec))
              (cli_of X w) w) as [[[e|] cli] w']; simpl; [reflexivity|].
  destruct (cliReporter.failed cli); reflexivity.
Qed.

(** C3. For the human reporter and for the collector, started with the
    flag down: after the callbacks of a run the flag is up exactly when one
    of them was a [Reject] or an [Error]; [Pass] and [Warn] leave the flag
    as it is.  When the engine itself returned nil the flag decides the
    outcome: with the flag up the result is the aggregate error (and the
    structured path writes nothing); with the flag down the text format
    returns nil and the structured path returns what encoding and writing
    give.  When the engine returned an error of its own, that error is the
    result whatever the flag. *)
Theorem C3_failed_flag :
  (forall (a : aurora.Aurora) (e : Probe) (w : World),
     exists cbs,
       delivered
         (snd (Probe_Probe e {| cliReporter.colors := a;
                                cliReporter.failed := false |} w)) =
         (delivered w ++ cbs)%list
       /\ cliReporter.failed
            (snd (fst (Probe_Probe e {| cliReporter.colors := a;
                                        cliReporter.failed := false |} w))) =
            existsb failing cbs)
  /\ (forall (e : Probe) (w : World),
       exists cbs,
         delivered (snd (Probe_Probe e resultsCollector.zero w)) =
           (delivered w ++ cbs)%list
         /\ resultsCollector.failed
              (snd (fst (Probe_Probe e resultsCollector.zero w))) =
              existsb failing cbs)
  /\ (forall (r : cliReporter.t) p v msg w,
       cliReporter.failed (snd (fst (cliReporter.Pass r p v w))) =
         cliReporter.failed r
       /\ cliReporter.failed (snd (fst (cliReporter.Warn r p v msg w))) =
            cliReporter.failed r)
  /\ (forall (r : resultsCollector.t) p v msg w,
       resultsCollector.failed (snd (fst (resultsCollector.Pass r p v w))) =
         resultsCollector.failed r
       /\ resultsCollector.failed
            (snd (fst (resultsCollector.Warn r p v msg w))) =
            resultsCollector.failed r)
  /\ (forall (X : Extern) (sysinfoSpec : K0sSysinfoSpec) (w : World),
       let ran := Probe_Probe (NewSysinfoProbes X (debug sysinfoSpec))
                    (cli_of X w) w in
       (fst (fst ran) = None ->
        cliReporter.failed (snd (fst ran)) = true ->
        fst (RunE X sysinfoSpec "text" w) = Some sysinfo_failed)
       /\ (fst (fst ran) = None ->
           cliReporter.failed (snd (fst ran)) = false ->
           fst (RunE X sysinfoSpec "text" w) = None)
       /\ (forall e, fst (fst ran) = Some e ->
           fst (RunE X sysinfoSpec "text" w) = Some e))
  /\ (forall (probe : Probe)
         (marshal : list result.Probe -> string * option error) (w : World),
       let ran := Probe_Probe probe resultsCollector.zero w in
       (fst (fst ran) = None ->
        resultsCollector.failed (snd (fst ran)) = true ->
        fst (collectAndPrint probe marshal w) = Some sysinfo_failed
        /\ stdout (snd (collectAndPrint probe marshal w)) = stdout w)
       /\ (fst (fst ran) = None ->
           resultsCollector.failed (snd (fst ran)) = false ->
           fst (collectAndPrint probe marshal w) =
             match snd (marshal (resultsCollector.results (snd (fst ran))))
             with
             | Some e => Some e
             | None =>
                 answer (snd ran)
                   (fst (marshal (resultsCollector.results (snd (fst ran)))))
             end)
       /\ (forall e, fst (fst ran) = Some e ->
           fst (collectAndPrint probe marshal w) = Some e
           /\ stdout (snd (collectAndPrint probe marshal w)) = stdout w)).
Proof.
  split; [|split; [|split; [|split; [|split]]]].
  - intros a e w. unfold Probe_Probe, bind, enter.
    match goal with
    | |- context [run e ?r ?w'] => destruct (cli_run e r w') as [cbs [D [F _]]]
    end.
    exists cbs. now rewrite D, F.
  - intros e w. exists (fst (uninterrupted e)).
    rewrite collector_Probe. split; reflexivity.
  - intros r p v msg w.
    unfold cliReporter.Pass, cliReporter.Warn, bind.
    rewrite !printf_writes. split; reflexivity.
  - intros r p v msg w. split; reflexivity.
  - intros X sysinfoSpec w ran. rewrite RunE_text. fold ran.
    split; [|split].
    + intros E F. now rewrite E, F.
    + intros E F. now rewrite E, F.
    + intros e E. now rewrite E.
  - intros probe marshal w ran. unfold ran.
    rewrite collectAndPrint_cases, collector_Probe. simpl.
    split; [|split].
    + intros E F. rewrite E, F. split; reflexivity.
    + intros E F. rewrite E, F.
      destruct (snd (marshal (map recorded (fst (uninterrupted probe)))));
        reflexivity.
    + intros e E. rewrite E. split; reflexivity.
Qed.

Lemma C3_failed_flag_witness :
  fst (RunE strict flags "text" fresh) = Some sysinfo_failed
  /\ fst (RunE plain flags "text" fresh) = None
  /\ fst (RunE aborting flags "text" fresh) =
       Some (errors.New "probe aborted")
  /\ fst (collectAndPrint rejecting categories fresh) = Some sysinfo_failed
  /\ fst (collectAndPrint reject_then_abort categories fresh) =
       Some (errors.New "probe aborted").
Proof.
  destruct C3_failed_flag as [_ [_ [_ [_ [T S]]]]].
  split; [|split; [|split; [|split]]].
  - destruct (T strict flags fresh) as [U _]. apply U; reflexivity.
  - destruct (T plain flags fresh) as [_ [D _]]. apply D; reflexivity.
  - destruct (T aborting flags fresh) as [_ [_ A]]. apply A. reflexivity.
  - destruct (S rejecting categories fresh) as [U _].
    apply U; reflexivity.
  - destruct (S reject_then_abort categories fresh) as [_ [_ A]].
    apply (A (errors.New "probe aborted")). reflexivity.
Defined.

(** With the flag up the result is still the engine's own error when the
    engine returned one: an engine that rejects a probe and then gives
    up. *)
Lemma C3_counterexample :
  ~ (forall (X : Extern) (sysinfoSpec : K0sSysinfoSpec) (w : World),
       cliReporter.failed
         (snd (fst (Probe_Probe (NewSysinfoProbes X (debug sysinfoSpec))
                      (cli_of X w) w))) = true ->
       fst (RunE X sysinfoSpec "text" w) = Some sysinfo_failed)
  /\ ~ (forall (probe : Probe)
          (marshal : list result.Probe -> string * option error) (w : World),
          resultsCollector.failed
            (snd (fst (Probe_Probe probe resultsCollector.zero w))) = true ->
          fst (collectAndPrint probe marshal w) = Some sysinfo_failed).
Proof.
  split; intros H.
  - specialize (H aborting flags fresh eq_refl). cbv in H. discriminate H.
  - specialize (H reject_then_abort categories fresh eq_refl).
    cbv in H. discriminate H.
Qed.

(** * Further properties *)

(** ** The lines of the human format *)

(** X1. [Pass] writes the label, the green property string and the
    annotation ["(pass)"], after a space when the property string is not
    empty, then the line feed; it hands back what the sink answered and
    leaves the flag as it is. *)
Theorem X1_Pass_line (r : cliReporter.t) (p : ProbeDesc)
  (v : option ProbedProp) (w : World) :
  cliReporter.Pass r p v w =
    ((answer w
        (label r p
         ++ aurora.Sprint (cliReporter.colors r) (aurora.Green (propString v))
         ++ (if propString v =? "" then "(pass)" else " (pass)")
         ++ strings.newline),
      r),
     after_write w
       (label r p
        ++ aurora.Sprint (cliReporter.colors r) (aurora.Green (propString v))
        ++ (if propString v =? "" then "(pass)" else " (pass)")
        ++ strings.newline)).
Proof.
  unfold cliReporter.Pass, bind. rewrite printf_writes.
  unfold cliReporter.Sprintf, label, cliReporter.show, ret.
  cbn [map String.concat]. rewrite buildMsg_shape.
  destruct (propString v =? ""); cbn [append];
    repeat rewrite append_assoc; reflexivity.
Qed.

Lemma cli_deliver_rendered (r : cliReporter.t) (c : Callback) (w : World) :
  deliver r c w =
    ((answer w (rendered (cliReporter.colors r) c),
      {| cliReporter.colors := cliReporter.colors r;
         cliReporter.failed := cliReporter.failed r || failing c |}),
     after_write w (rendered (cliReporter.colors r) c)).
Proof.
  destruct r as [a f], c as [p v|p v msg|p v msg|p err]; simpl;
    unfold cliReporter.Pass, cliReporter.Warn, cliReporter.Reject,
      cliReporter.Error, bind;
    rewrite printf_writes; unfold cliReporter.Sprintf, ret; simpl;
    rewrite ?orb_false_r, ?orb_true_r;
    repeat rewrite append_assoc; reflexivity.
Qed.

Lemma cli_run_lines (e : Probe) :
  forall (r : cliReporter.t) (w : World),
  exists cbs,
    snd (run e r w) =
      {| stdout := {| io.written :=
                        io.written (stdout w)
                        ++ map (rendered (cliReporter.colors r)) cbs;
                      io.respond := io.respond (stdout w) |};
         invocations := invocations w;
         delivered := delivered w ++ cbs |}
    /\ snd (fst (run e r w)) =
         {| cliReporter.colors := cliReporter.colors r;
            cliReporter.failed :=
              cliReporter.failed r || existsb failing cbs |}.
Proof.
  induction e as [res|c k IH]; intros [a f] [[ws rp] n d].
  - exists []. simpl. now rewrite !app_nil_r, orb_false_r.
  - simpl. unfold bind at 1. unfold note. unfold bind.
    rewrite cli_deliver_rendered.
    match goal with
    | |- context [run (k ?x) ?r' ?w'] =>
        destruct (IH x r' w') as [cbs [W R]]
    end.
    exists (c :: cbs). rewrite W, R. simpl.
    now rewrite <- !app_assoc, orb_assoc.
Qed.

Lemma text_lines (X : Extern)
  (sysinfoSpec : K0sSysinfoSpec) (w : World) :
  exists cbs,
    snd (RunE X sysinfoSpec "text" w) =
      after_lines (after_probe w cbs)
        (map (rendered (cliReporter.colors (cli_of X w))) cbs).
Proof.
  assert (E : snd (RunE X sysinfoSpec "text" w) =
              snd (Probe_Probe (NewSysinfoProbes X (debug sysinfoSpec))
                     (cli_of X w) w)).
  { unfold RunE, bind at 1, OutOrStdout. simpl. unfold bind at 1.
    fold (debug sysinfoSpec). fold (cli_of X w).
    destruct (Probe_Probe (NewSysinfoProbes X (debug sysinfoSpec))
                (cli_of X w) w) as [[[e|] cli] w']; simpl; [reflexivity|].
    destruct (cliReporter.failed cli); reflexivity. }
  rewrite E. unfold Probe_Probe, bind, enter.
  match goal with
  | |- context [run ?e ?r ?w'] => destruct (cli_run_lines e r w') as [cbs [W _]]
  end.
  exists cbs. rewrite W. reflexivity.
Qed.

(** X2. On the text format, whatever the engine does and whatever the sink
    answers, what is written is exactly one line for each callback the
    engine made, in the order of the callbacks, each as the reporter
    renders it; the engine is entered once. *)
Theorem X2_text_one_line_per_callback (X : Extern)
  (sysinfoSpec : K0sSysinfoSpec) (w : World) :
  exists cbs,
    snd (RunE X sysinfoSpec "text" w) =
      after_lines (after_probe w cbs)
        (map (rendered (cliReporter.colors (cli_of X w))) cbs).
Proof. exact (text_lines X sysinfoSpec w). Qed.

Lemma cli_run_accepting (e : Probe) :
  forall (r : cliReporter.t) (w : World),
    accepting w ->
    run e r w =
      ((snd (uninterrupted e),
        {| cliReporter.colors := cliReporter.colors r;
           cliReporter.failed :=
             cliReporter.failed r
             || existsb failing (fst (uninterrupted e)) |}),
       {| stdout := {| io.written :=
                         io.written (stdout w)
                         ++ map (rendered (cliReporter.colors r))
                              (fst (uninterrupted e));
                       io.respond := io.respond (stdout w) |};
          invocations := invocations w;
          delivered := delivered w ++ fst (uninterrupted e) |}).
Proof.
  induction e as [res|c k IH]; intros [a f] [[ws rp] n d] A.
  - simpl. unfold ret. now rewrite !app_nil_r, orb_false_r.
  - simpl. unfold bind at 1. unfold note. unfold bind.
    rewrite cli_deliver_rendered.
    unfold answer at 1. simpl. rewrite (A ws). 
    rewrite IH by (intros b q; apply A).
    destruct (uninterrupted (k None)) as [cs res]. simpl.
    now rewrite <- !app_assoc, orb_assoc.
Qed.

Lemma text_on_accepting_sink (X : Extern)
  (sysinfoSpec : K0sSysinfoSpec) (w : World) :
  accepting w ->
  RunE X sysinfoSpec "text" w =
    (match snd (uninterrupted (NewSysinfoProbes X (debug sysinfoSpec))) with
     | Some e => Some e
     | None =>
         if existsb failing
              (fst (uninterrupted (NewSysinfoProbes X (debug sysinfoSpec))))
         then Some sysinfo_failed
         else None
     end,
     after_lines
       (after_probe w
          (fst (uninterrupted (NewSysinfoProbes X (debug sysinfoSpec)))))
       (map (rendered (cliReporter.colors (cli_of X w)))
          (fst (uninterrupted (NewSysinfoProbes X (debug sysinfoSpec)))))).
Proof.
  intros A.
  unfold RunE, bind at 1, OutOrStdout. simpl. unfold bind at 1.
  fold (debug sysinfoSpec). fold (cli_of X w).
  unfold Probe_Probe, bind, enter.
  rewrite cli_run_accepting by (intros b q; apply A). simpl.
  destruct (snd (uninterrupted (NewSysinfoProbes X (debug sysinfoSpec))));
    [reflexivity|].
  destruct (existsb failing
              (fst (uninterrupted (NewSysinfoProbes X (debug sysinfoSpec)))));
    reflexivity.
Qed.

(** X3. On a sink that takes every write, the text format is determined
    by the engine alone: the callbacks are those the engine makes when
    every callback returns nil, one rendered line is written for each, and
    the result is the engine's own error, else the aggregate error when a
    callback was a [Reject] or an [Error], else nil. *)
Theorem X3_text_on_accepting_sink (X : Extern)
  (sysinfoSpec : K0sSysinfoSpec) (w : World) :
  accepting w ->
  RunE X sysinfoSpec "text" w =
    (match snd (uninterrupted (NewSysinfoProbes X (debug sysinfoSpec))) with
     | Some e => Some e
     | None =>
         if existsb failing
              (fst (uninterrupted (NewSysinfoProbes X (debug sysinfoSpec))))
         then Some sysinfo_failed
         else None
     end,
     after_lines
       (after_probe w
          (fst (uninterrupted (NewSysinfoProbes X (debug sysinfoSpec)))))
       (map (rendered (cliReporter.colors (cli_of X w)))
          (fst (uninterrupted (NewSysinfoProbes X (debug sysinfoSpec)))))).
Proof. exact (text_on_accepting_sink X sysinfoSpec w). Qed.

Lemma X3_text_on_accepting_sink_witness :
  RunE plain flags "text" fresh =
    (match snd (uninterrupted (NewSysinfoProbes plain (debug flags))) with
     | Some e => Some e
     | None =>
         if existsb failing
              (fst (uninterrupted (NewSysinfoProbes plain (debug flags))))
         then Some sysinfo_failed
         else None
     end,
     after_lines
       (after_probe fresh
          (fst (uninterrupted (NewSysinfoProbes plain (debug flags)))))
       (map (rendered (cliReporter.colors (cli_of plain fresh)))
          (fst (uninterrupted (NewSysinfoProbes plain (debug flags)))))).
Proof.
  apply (X3_text_on_accepting_sink plain flags fresh).
  intros before p. reflexivity.
Defined.

Lemma RunE_structured (X : Extern) (sysinfoSpec : K0sSysinfoSpec)
  (w : World) :
  RunE X sysinfoSpec "json" w =
    collectAndPrint (NewSysinfoProbes X (debug sysinfoSpec))
      (json_MarshalIndent X) w
  /\ RunE X sysinfoSpec "yaml" w =
       collectAndPrint (NewSysinfoProbes X (debug sysinfoSpec))
         (yaml_Marshal X) w.
Proof. split; reflexivity. Qed.

(** X4. On a sink that takes every write, the text format and the
    structured formats return the same error whenever the engine returned
    an error of its own or a callback was a [Reject] or an [Error]; the
    text format has then written its lines, the structured ones nothing. *)
Theorem X4_formats_agree_on_failure (X : Extern)
  (sysinfoSpec : K0sSysinfoSpec) (w : World) :
  accepting w ->
  snd (uninterrupted (NewSysinfoProbes X (debug sysinfoSpec))) <> None
  \/ existsb failing
       (fst (uninterrupted (NewSysinfoProbes X (debug sysinfoSpec)))) = true ->
  fst (RunE X sysinfoSpec "json" w) = fst (RunE X sysinfoSpec "text" w)
  /\ fst (RunE X sysinfoSpec "yaml" w) = fst (RunE X sysinfoSpec "text" w)
  /\ stdout (snd (RunE X sysinfoSpec "json" w)) = stdout w
  /\ stdout (snd (RunE X sysinfoSpec "yaml" w)) = stdout w
  /\ List.length (io.written (stdout (snd (RunE X sysinfoSpec "text" w)))) =
       List.length (io.written (stdout w))
       + List.length
           (fst (uninterrupted (NewSysinfoProbes X (debug sysinfoSpec)))).
Proof.
  intros A F. rewrite (text_on_accepting_sink X sysinfoSpec w A).
  destruct (RunE_structured X sysinfoSpec w) as [Ej Ey]. rewrite Ej, Ey.
  rewrite !collectAndPrint_cases. simpl.
  destruct (snd (uninterrupted (NewSysinfoProbes X (debug sysinfoSpec))))
    as [e|].
  - repeat split. now rewrite length_app, length_map.
  - destruct F as [F|F]; [congruence|]. rewrite F.
    repeat split. now rewrite length_app, length_map.
Qed.

Lemma X4_formats_agree_on_failure_witness :
  fst (RunE strict flags "json" fresh) = fst (RunE strict flags "text" fresh)
  /\ fst (RunE strict flags "yaml" fresh) =
       fst (RunE strict flags "text" fresh)
  /\ stdout (snd (RunE strict flags "json" fresh)) = stdout fresh
  /\ stdout (snd (RunE strict flags "yaml" fresh)) = stdout fresh
  /\ List.length
       (io.written (stdout (snd (RunE strict flags "text" fresh)))) =
       List.length (io.written (stdout fresh))
       + List.length
           (fst (uninterrupted (NewSysinfoProbes strict (debug flags)))).
Proof.
  apply (X4_formats_agree_on_failure strict flags fresh).
  - intros before p. reflexivity.
  - right. reflexivity.
Defined.

(** ** The flag and the engine *)

(** X5. No callback lowers the flag: a reporter whose flag is up still has
    it up after any run of any engine, whatever the sink answers. *)
Theorem X5_flag_stays_up (e : Probe) (w : World)
  (cli : cliReporter.t) (c : resultsCollector.t) :
  cliReporter.failed cli = true ->
  resultsCollector.failed c = true ->
  cliReporter.failed (snd (fst (run e cli w))) = true
  /\ resultsCollector.failed (snd (fst (run e c w))) = true.
Proof.
  intros Hcli Hc. split.
  - destruct (cli_run_lines e cli w) as [cbs [_ R]]. rewrite R. simpl.
    now rewrite Hcli.
  - rewrite collector_run. simpl. now rewrite Hc.
Qed.

Lemma X5_flag_stays_up_witness :
  cliReporter.failed
    (snd (fst (run passing
                 {| cliReporter.colors := aurora.clear;
                    cliReporter.failed := true |} broken))) = true
  /\ resultsCollector.failed
       (snd (fst (run passing
                    {| resultsCollector.results := [];
                       resultsCollector.failed := true |} broken))) = true.
Proof.
  apply (X5_flag_stays_up passing broken
           {| cliReporter.colors := aurora.clear;
              cliReporter.failed := true |}
           {| resultsCollector.results := [];
              resultsCollector.failed := true |});
    reflexivity.
Defined.

(** X6. For each of the formats ["text"], ["json"] and ["yaml"] the
    command enters the engine exactly once, whatever the engine returns
    and whatever the sink answers. *)
Theorem X6_engine_entered_once (X : Extern) (sysinfoSpec : K0sSysinfoSpec)
  (w : World) :
  invocations (snd (RunE X sysinfoSpec "text" w)) = S (invocations w)
  /\ invocations (snd (RunE X sysinfoSpec "json" w)) = S (invocations w)
  /\ invocations (snd (RunE X sysinfoSpec "yaml" w)) = S (invocations w).
Proof.
  split.
  - destruct (text_lines X sysinfoSpec w) as [cbs E]. now rewrite E.
  - destruct (RunE_structured X sysinfoSpec w) as [Ej Ey]. rewrite Ej, Ey.
    rewrite !collectAndPrint_cases.
    destruct (snd (uninterrupted (NewSysinfoProbes X (debug sysinfoSpec)))),
      (existsb failing
         (fst (uninterrupted (NewSysinfoProbes X (debug sysinfoSpec)))));
      try (split; reflexivity).
    split;
      match goal with
      | |- context [match snd ?m with _ => _ end] => destruct (snd m)
      end; reflexivity.
Qed.

(** X7. The structured path writes at most once. Collecting leaves the
    sink as it was, and [collectAndPrint] either leaves the sink as it was
    or makes the one write of the encoded records, which happens only when
    the engine returned nil, no callback was a [Reject] or an [Error] and
    the encoder returned no error. *)
Theorem X7_structured_writes_at_most_once (probe : Probe)
  (marshal : list result.Probe -> string * option error) (w : World) :
  stdout (snd (Probe_Probe probe resultsCollector.zero w)) = stdout w
  /\ (stdout (snd (collectAndPrint probe marshal w)) = stdout w
      \/ (snd (collectAndPrint probe marshal w) =
            after_write (after_probe w (fst (uninterrupted probe)))
              (fst (marshal (map recorded (fst (uninterrupted probe)))))
          /\ snd (uninterrupted probe) = None
          /\ existsb failing (fst (uninterrupted probe)) = false
          /\ snd (marshal (map recorded (fst (uninterrupted probe)))) = None)).
Proof.
  rewrite collector_Probe, collectAndPrint_cases. split; [reflexivity|].
  destruct (snd (uninterrupted probe)); [now left|].
  destruct (existsb failing (fst (uninterrupted probe))); [now left|].
  destruct (snd (marshal (map recorded (fst (uninterrupted probe)))));
    [now left|].
  right. repeat split.
Qed.

(** ** Invariants of the collector *)

Lemma failure_record_recorded (c : Callback) :
  failure_record (recorded c) = failing c.
Proof. now destruct c. Qed.

Lemma shaped_recorded (c : Callback) : shaped (recorded c) = true.
Proof. now destruct c as [p v|p v msg|p v msg|p [e|]]. Qed.

(** X8. The flag of the collector agrees with its records: when it is up
    exactly if some record is filed under ["rejected"] or ["error"], it
    still is after any run of any engine. *)
Theorem X8_flag_agrees_with_records (e : Probe) (r : resultsCollector.t)
  (w : World) :
  flag_agrees r ->
  flag_agrees (snd (fst (run e r w))).
Proof.
  unfold flag_agrees. intros H. rewrite collector_run. simpl.
  rewrite existsb_app, H. f_equal.
  induction (fst (uninterrupted e)) as [|c cs IH]; [reflexivity|].
  simpl. now rewrite failure_record_recorded, IH.
Qed.

Lemma X8_flag_agrees_with_records_witness :
  flag_agrees (snd (fst (run rejecting resultsCollector.zero fresh))).
Proof.
  apply (X8_flag_agrees_with_records rejecting resultsCollector.zero fresh).
  reflexivity.
Defined.

(** X9. The records keep their shape: each is filed under one of the four
    categories; a record under ["pass"] has no message and no error, one
    under ["warning"] or ["rejected"] has no error, one under ["error"]
    has no property string and no message. A collector whose records have
    that shape still has such records after any run of any engine. *)
Theorem X9_records_keep_their_shape (e : Probe) (r : resultsCollector.t)
  (w : World) :
  forallb shaped (resultsCollector.results r) = true ->
  forallb shaped (resultsCollector.results (snd (fst (run e r w)))) = true.
Proof.
  intros H. rewrite collector_run. simpl. rewrite forallb_app, H. simpl.
  apply forallb_forall. intros rec Hin.
  apply in_map_iff in Hin as [c [<- _]]. apply shaped_recorded.
Qed.

Lemma X9_records_keep_their_shape_witness :
  forallb shaped
    (resultsCollector.results
       (snd (fst (run rejecting resultsCollector.zero fresh)))) = true.
Proof.
  apply (X9_records_keep_their_shape rejecting resultsCollector.zero fresh).
  reflexivity.
Defined.

(** ** The command and its collaborators *)

(** X10. Colours are used by the text format only: for any other format
    the command does the same whatever the terminal test and the colour
    printer are. *)
Theorem X10_colours_for_text_only (X : Extern) (isTerminal : io.Writer -> bool)
  (a : aurora.Aurora) (sysinfoSpec : K0sSysinfoSpec) (outputFormat : string)
  (w : World) :
  outputFormat <> "text" ->
  RunE (recolored X isTerminal a) sysinfoSpec outputFormat w =
    RunE X sysinfoSpec outputFormat w.
Proof.
  intros H. apply String.eqb_neq in H.
  unfold RunE, bind, OutOrStdout. rewrite H. reflexivity.
Qed.

Lemma X10_colours_for_text_only_witness :
  RunE (recolored plain (fun _ => true) bracketed) flags "json" fresh =
    RunE plain flags "json" fresh.
Proof.
  apply (X10_colours_for_text_only plain (fun _ => true) bracketed flags
           "json" fresh).
  discriminate.
Defined.

(** ** The helpers *)

(** X11. The annotation shows the category and the message only: of the
    property string [buildMsg] uses nothing but whether it is empty. *)
Theorem X11_buildMsg_hides_property (prop prop' category msg : string) :
  prop <> "" ->
  prop' <> "" ->
  buildMsg prop category msg = buildMsg prop' category msg
  /\ buildMsg prop category msg = " " ++ buildMsg "" category msg.
Proof.
  intros H H'. apply String.eqb_neq in H, H'.
  rewrite !buildMsg_shape, H, H'. split; reflexivity.
Qed.

Lemma X11_buildMsg_hides_property_witness :
  buildMsg "4.19" "warning" "too old" = buildMsg "5.4" "warning" "too old"
  /\ buildMsg "4.19" "warning" "too old" =
       " " ++ buildMsg "" "warning" "too old".
Proof.
  apply (X11_buildMsg_hides_property "4.19" "5.4" "warning" "too old");
    discriminate.
Defined.

(** X12. Nesting: a descriptor one level below a descriptor without a
    path is not indented, like it; one level below a descriptor with a
    path it is indented by two more spaces than it. *)
Theorem X12_indent_step (p : ProbeDesc) (segment name : string) :
  indent (Some (child p segment name)) =
    (if (List.length (Path p) <=? 0)%nat then indent (Some p)
     else "  " ++ indent (Some p)).
Proof.
  rewrite !indent_spaces. unfold child. cbn [Path].
  rewrite length_app. cbn [List.length].
  destruct (Nat.leb_spec (List.length (Path p)) 0) as [H|H].
  - replace (List.length (Path p)) with 0 by lia. reflexivity.
  - replace (2 * (List.length (Path p) + 1 - 1))
      with (S (S (2 * (List.length (Path p) - 1)))) by lia.
    reflexivity.
Qed.
